(** * The model details page of the valor web front end

    A shallow embedding of [web/src/model-details-page.tsx]: the static
    column schema [columns], and the React component [ModelDetailsPage]
    with its one state slot and its one effect.  The component is a
    function of its hook state; the event loop around it (renders caused
    by the router, settlement of the promises of [axios.get]) is a step
    function on a [World]. *)

From stdpp Require Import gmap strings list pretty.
From Stdlib Require Import ZArith.

Local Open Scope Z_scope.
Set Warnings "-register-all".

(** ** JavaScript values *)

(** The integers a JavaScript number holds exactly and prints digit by
    digit: those strictly between [-2^53] and [2^53], that is from
    [Number.MIN_SAFE_INTEGER] to [Number.MAX_SAFE_INTEGER]. *)
Definition is_safe_integer (n : Z) : bool :=
  (- 2 ^ 53 <? n) && (n <? 2 ^ 53).

Definition SafeInt : Type := { n : Z | Is_true (is_safe_integer n) }.

Definition safe_int (n : Z) (H : Is_true (is_safe_integer n)) : SafeInt :=
  n ↾ H.

(** The values a response body, a row or a row property can be.  The
    numbers are the safe integers and [NaN]: a number with a fraction, or
    one of magnitude [2^53] and more, has no value here, so nothing is
    said about how it prints. *)
Inductive JsVal : Type :=
| JUndefined
| JNull
| JBool (b : bool)
| JNum (n : SafeInt)
| JNaN
| JStr (s : string)
| JArr (items : list JsVal)
| JObj (props : list (string * JsVal)).

(** [!v] is [negb (js_truthy v)]: the falsy values are [undefined],
    [null], [false], [0], [NaN] and the empty string; every array and
    every object is truthy. *)
Definition js_truthy (v : JsVal) : bool :=
  match v with
  | JUndefined | JNull | JNaN => false
  | JBool b => b
  | JNum n => negb (`n =? 0)
  | JStr s => negb (bool_decide (s = EmptyString))
  | JArr _ | JObj _ => true
  end.

Fixpoint sep_by (sep : string) (l : list string) : string :=
  match l with
  | [] => EmptyString
  | [s] => s
  | s :: rest => s +:+ sep +:+ sep_by sep rest
  end.

(** String conversion, as a template literal applies it to [${v}].  A
    safe integer prints as its decimal digits, with a minus sign when
    negative.  [Array.prototype.join] prints [null] and [undefined]
    items as the empty string. *)
Fixpoint js_to_string (v : JsVal) : string :=
  match v with
  | JUndefined => "undefined"
  | JNull => "null"
  | JBool true => "true"
  | JBool false => "false"
  | JNum n => pretty (`n)
  | JNaN => "NaN"
  | JStr s => s
  | JArr items =>
      sep_by ","
        (map (fun x => match x with
                       | JUndefined | JNull => EmptyString
                       | _ => js_to_string x
                       end) items)
  | JObj _ => "[object Object]"
  end.

(** A [string | undefined] spliced into a template literal. *)
Definition template_part (o : option string) : string :=
  match o with
  | Some s => s
  | None => "undefined"
  end.

Fixpoint assoc (k : string) (props : list (string * JsVal)) : option JsVal :=
  match props with
  | [] => None
  | (k', v) :: rest => if bool_decide (k = k') then Some v else assoc k rest
  end.

(** Property read [v.k] / [v[k]].  [None] is the [TypeError] of reading
    a property of [undefined] or [null]; an absent property reads as
    [undefined].  Inherited properties of primitives and arrays (such as
    [length]) are not modelled. *)
Definition get_prop (v : JsVal) (k : string) : option JsVal :=
  match v with
  | JUndefined | JNull => None
  | JObj props => Some (default JUndefined (assoc k props))
  | _ => Some JUndefined
  end.

(** ** Rows *)


(** An identifier is a number or a string. *)
Inductive RowId : Type :=
| IdNum (n : SafeInt)
| IdStr (s : string).

Definition id_value (i : RowId) : JsVal :=
  match i with
  | IdNum n => JNum n
  | IdStr s => JStr s
  end.


(** Modelled from the spec: the type [EvaluationSetting] is imported from
    [./velour-types], which is not among the sources.  The spec lists its
    properties: an identifier, three display strings and two numeric
    bounds.  The bounds are numbers of this model, so safe integers; a
    row of any other shape is an object like any other, and is covered
    where a statement ranges over all objects. *)
Record EvaluationSetting : Type := {
  id : RowId;
  dataset_name : string;
  model_pred_task_type : string;
  dataset_gt_task_type : string;
  min_area : SafeInt;
  max_area : SafeInt;
}.

(** The object a row is at run time. *)
Definition row_object (r : EvaluationSetting) : JsVal :=
  JObj [ ("id", id_value (id r));
         ("dataset_name", JStr (dataset_name r));
         ("model_pred_task_type", JStr (model_pred_task_type r));
         ("dataset_gt_task_type", JStr (dataset_gt_task_type r));
         ("min_area", JNum (min_area r));
         ("max_area", JNum (max_area r)) ].

(** ** Elements *)

Record GridRenderCellParams : Type := { row : JsVal }.

(** [GridColDef], with the properties the file sets.  A property that a
    column leaves out is [None]: the grid then applies its default. *)
Record GridColDef (E : Type) : Type := {
  field : string;
  headerName : string;
  width : option Z;
  renderCell : option (GridRenderCellParams -> option E);
  sortable : option bool;
  filterable : option bool;
  hideable : option bool;
}.
Arguments field {E} _.
Arguments headerName {E} _.
Arguments width {E} _.
Arguments renderCell {E} _.
Arguments sortable {E} _.
Arguments filterable {E} _.
Arguments hideable {E} _.

(** The JSX elements the file builds. *)
Inductive Element : Type :=
| Link (href : string) (children : string)
| Typography (variant : string) (children : option string)
| h3 (children : string)
| DataGrid (rows : JsVal) (cols : list (GridColDef Element))
    (pageSize : Z) (pageSizeOptions : list Z)
    (disableRowSelectionOnClick : bool)
| Wrapper (children : list Element).

(** ** The column schema *)

Definition taskTypeWidth : Z := 250.
Definition areaWidth : Z := 175.

(** The renderer of the last column:
    [<Link href={`evaluation-settings/${params.row.id}`}>view metrics</Link>]. *)
Definition view_metrics_cell (params : GridRenderCellParams) : option Element :=
  v ← get_prop (row params) "id";
  Some (Link ("evaluation-settings/" +:+ js_to_string v) "view metrics").

Definition columns : list (GridColDef Element) :=
  [ {| field := "dataset_name"; headerName := "Dataset";
       width := None; renderCell := None;
       sortable := None; filterable := None; hideable := None |};
    {| field := "model_pred_task_type"; headerName := "Model prediction type";
       width := Some taskTypeWidth; renderCell := None;
       sortable := None; filterable := None; hideable := None |};
    {| field := "dataset_gt_task_type"; headerName := "Dataset annotation type";
       width := Some taskTypeWidth; renderCell := None;
       sortable := None; filterable := None; hideable := None |};
    {| field := "min_area"; headerName := "Min. area of objects";
       width := Some areaWidth; renderCell := None;
       sortable := None; filterable := None; hideable := None |};
    {| field := "max_area"; headerName := "Max. area of objects";
       width := Some areaWidth; renderCell := None;
       sortable := None; filterable := None; hideable := None |};
    {| field := EmptyString; headerName := EmptyString;
       width := None; renderCell := Some view_metrics_cell;
       sortable := Some false; filterable := Some false;
       hideable := Some false |} ].

(** What the grid puts in the cell of a row under a column: the node of
    the column's [renderCell] when it has one, the row's value at [field]
    otherwise.  This is the contract of the widget the columns are
    written for, not code of the page. *)
Inductive Cell : Type :=
| CellValue (v : JsVal)
| CellNode (e : Element).

Definition grid_cell (c : GridColDef Element) (r : JsVal) : option Cell :=
  match renderCell c with
  | Some f => CellNode <$> f {| row := r |}
  | None => CellValue <$> get_prop r (field c)
  end.

Definition has_width (c : GridColDef Element) : bool :=
  match width c with Some _ => true | None => false end.

Definition has_renderCell (c : GridColDef Element) : bool :=
  match renderCell c with Some _ => true | None => false end.

(** ** The component and the event loop *)

Inductive Method : Type := GET | POST.

Record Request : Type := {
  method : Method;
  req_url : string;
  req_data : option JsVal;
  req_params : list (string * string);
}.

(** [axios.get(url)], with no config argument. *)
Definition axios_get (u : string) : Request :=
  {| method := GET; req_url := u; req_data := None; req_params := [] |}.

(** The hook state of the one mounted component, and the network around
    it.  [deps] is the dependency array [[url]] of the last run of the
    effect ([None] before the first render); [route] is the [name] of
    the last render; [pending] holds the promises not settled yet, by
    order of issue; [sent] is every request issued so far, oldest
    first. *)
Record World : Type := {
  allEvalSettings : JsVal;
  deps : option string;
  route : option string;
  pending : gmap nat Request;
  next_id : nat;
  sent : list Request;
}.

(** Before the first render: [useState([])]. *)
Definition init : World :=
  {| allEvalSettings := JArr []; deps := None; route := None;
     pending := ∅; next_id := 0%nat; sent := [] |}.

Definition setAllEvalSettings (v : JsVal) (w : World) : World :=
  {| allEvalSettings := v; deps := deps w; route := route w;
     pending := pending w; next_id := next_id w; sent := sent w |}.

Definition settle (i : nat) (w : World) : World :=
  {| allEvalSettings := allEvalSettings w; deps := deps w; route := route w;
     pending := delete i (pending w); next_id := next_id w; sent := sent w |}.

Inductive Event : Type :=
| ERender (name : option string)
| EResolve (i : nat) (data : JsVal)
| EReject (i : nat).

Section Page.

(** [process.env.REACT_APP_BACKEND_URL]. *)
Variable REACT_APP_BACKEND_URL : option string.

Definition url (name : option string) : string :=
  template_part REACT_APP_BACKEND_URL +:+ "/models/" +:+
  template_part name +:+ "/evaluation-settings".

(** [useEffect(() => { axios.get(url).then(...) }, [url])]: the effect
    runs after the first render and after a render whose [url] differs
    from the one of the last run. *)
Definition useEffect (u : string) (w : World) : World :=
  if bool_decide (deps w = Some u) then w
  else
    {| allEvalSettings := allEvalSettings w; deps := Some u; route := route w;
       pending := <[next_id w := axios_get u]> (pending w);
       next_id := S (next_id w);
       sent := sent w ++ [axios_get u] |}.

(** What the component returns for a [name] and a stored value. *)
Definition page (name : option string) (stored : JsVal) : option Element :=
  if negb (js_truthy stored) then None
  else Some (Wrapper [ Typography "h2" name;
                       h3 "Evaluations";
                       DataGrid stored columns 5 [5] true ]).

(** One render: the hooks run, then the early return or the page. *)
Definition ModelDetailsPage (name : option string) (w : World)
  : World * option Element :=
  let w1 :=
    {| allEvalSettings := allEvalSettings w; deps := deps w; route := name;
       pending := pending w; next_id := next_id w; sent := sent w |} in
  (useEffect (url name) w1, page name (allEvalSettings w)).

(** What is on screen. *)
Definition view (w : World) : option Element :=
  (ModelDetailsPage (route w) w).2.

(** One event.  The promise of a pending request is fulfilled with a
    response whose [data] the [then] callback stores, after which React
    renders again; or it is rejected, and nothing is registered for
    that.  An event on a request that is not pending is [None]. *)
Definition step (w : World) (e : Event) : option World :=
  match e with
  | ERender name => Some (ModelDetailsPage name w).1
  | EResolve i data =>
      match pending w !! i with
      | Some _ =>
          let w1 := setAllEvalSettings data (settle i w) in
          Some (ModelDetailsPage (route w1) w1).1
      | None => None
      end
  | EReject i =>
      match pending w !! i with
      | Some _ => Some (settle i w)
      | None => None
      end
  end.

Fixpoint run (w : World) (tr : list Event) : option World :=
  match tr with
  | [] => Some w
  | e :: tr' => w' ← step w e; run w' tr'
  end.

(** The body of the last response in a trace, [d0] when there is none. *)
Fixpoint last_body (d0 : JsVal) (tr : list Event) : JsVal :=
  match tr with
  | [] => d0
  | EResolve _ d :: tr' => last_body d tr'
  | _ :: tr' => last_body d0 tr'
  end.

Definition is_resolve (e : Event) : bool :=
  match e with EResolve _ _ => true | _ => false end.

(** What holds of every world the event loop reaches: identifiers of
    pending requests are below the next one, and after a render the
    effect has run for the [url] of the current [name]. *)
Definition coherent (w : World) : Prop :=
  (∀ i r, pending w !! i = Some r → (i < next_id w)%nat)
  ∧ match deps w with
    | None => route w = None
    | Some u => u = url (route w)
    end.

End Page.

(** The grid of a page, as rows, columns, page size and page sizes on
    offer. *)
Definition grid_of (e : Element)
  : option (JsVal * list (GridColDef Element) * Z * list Z) :=
  match e with
  | Wrapper [_; _; DataGrid rs cs n opts _] => Some (rs, cs, n, opts)
  | _ => None
  end.

Definition heading_of (e : Element) : option Element :=
  match e with
  | Wrapper (hd :: _) => Some hd
  | _ => None
  end.

Definition grid_columns (e : Element) : list (GridColDef Element) :=
  match grid_of e with
  | Some (_, cs, _, _) => cs
  | None => []
  end.

(** Number of items of a stored array. *)
Definition row_count (v : JsVal) : option nat :=
  match v with
  | JArr items => Some (length items)
  | _ => None
  end.

(** ** Sample data *)

Definition backend : option string := Some "http://localhost:8000".

(** The row of the spec's first testable property. *)
Definition coco : EvaluationSetting :=
  {| id := IdNum (safe_int 1 I); dataset_name := "coco";
     model_pred_task_type := "detection";
     dataset_gt_task_type := "detection";
     min_area := safe_int 0 I; max_area := safe_int 1000 I |}.

Definition voc : EvaluationSetting :=
  {| id := IdNum (safe_int 2 I); dataset_name := "voc";
     model_pred_task_type := "segmentation";
     dataset_gt_task_type := "segmentation";
     min_area := safe_int 10 I; max_area := safe_int 500 I |}.

(** The page mounted for model [resnet50], its request still pending. *)
Definition mounted : World := (ModelDetailsPage backend (Some "resnet50") init).1.

(** The route then moves to [yolo] with the first request still pending:
    two requests in flight. *)
Definition two_in_flight : World :=
  (ModelDetailsPage backend (Some "yolo") mounted).1.

(** The request for [yolo] fails after the one for [resnet50] was
    answered. *)
Definition reject_after_success : list Event :=
  [ ERender (Some "resnet50");
    EResolve 0%nat (JArr [row_object coco]);
    ERender (Some "yolo");
    EReject 1%nat ].

(** Both models are looked at in turn, and each request is answered. *)
Definition two_answers : list Event :=
  [ ERender (Some "resnet50");
    EResolve 0%nat (JArr [row_object coco]);
    ERender (Some "yolo");
    EResolve 1%nat (JArr [row_object voc]) ].

(** ** The request log *)

(** How the log of requests relates to the hook state: the next
    identifier is the number of requests sent, a pending request sits in
    the log at its identifier, every request is an [axios.get] of the
    URL of some [name], and the last one is for the URL the effect ran
    for last. *)
Definition logged (env : option string) (w : World) : Prop :=
  next_id w = length (sent w)
  ∧ (∀ i r, pending w !! i = Some r → sent w !! i = Some r)
  ∧ (∀ r, r ∈ sent w → ∃ name, r = axios_get (url env name))
  ∧ match deps w with
    | None => sent w = []
    | Some u => last (sent w) = Some (axios_get u)
    end.

(** The URLs of the renders of a trace, in order. *)
Fixpoint render_urls (env : option string) (tr : list Event) : list string :=
  match tr with
  | [] => []
  | ERender name :: tr' => url env name :: render_urls env tr'
  | _ :: tr' => render_urls env tr'
  end.

(** A list of URLs without the items equal to the one before them,
    [prev] standing before the first. *)
Fixpoint squash_from (prev : option string) (l : list string) : list string :=
  match l with
  | [] => []
  | u :: l' =>
      if bool_decide (prev = Some u) then squash_from prev l'
      else u :: squash_from (Some u) l'
  end.

(** The page for [resnet50] after a response with body [null]: nothing
    is on screen. *)
Definition blank : World := setAllEvalSettings JNull (settle 0%nat mounted).

(** The route goes to [yolo] and back, with renders in between that
    keep the URL, and the first request is answered on the way. *)
Definition back_and_forth : list Event :=
  [ ERender (Some "resnet50");
    ERender (Some "resnet50");
    EResolve 0%nat (JArr [row_object coco]);
    ERender (Some "yolo");
    ERender (Some "yolo");
    ERender (Some "resnet50") ].

(** ** Strings *)

Lemma list_ascii_of_string_append (s t : string) :
  String.list_ascii_of_string (s +:+ t)
  = (String.list_ascii_of_string s ++ String.list_ascii_of_string t)%list.
Proof. induction s as [|a s IH]; simpl; [done|]. by rewrite IH. Qed.

Lemma list_ascii_of_string_inj (s t : string) :
  String.list_ascii_of_string s = String.list_ascii_of_string t → s = t.
Proof.
  intros H.
  rewrite <- (String.string_of_list_ascii_of_string s),
          <- (String.string_of_list_ascii_of_string t).
  by rewrite H.
Qed.

Lemma append_inj_r (t s1 s2 : string) : s1 +:+ t = s2 +:+ t → s1 = s2.
Proof.
  intros H. apply list_ascii_of_string_inj.
  apply (f_equal String.list_ascii_of_string) in H.
  rewrite !list_ascii_of_string_append in H.
  by apply app_inv_tail in H.
Qed.

(** For a fixed backend, the identifier can be read back from the URL. *)
Lemma url_inj (env : option string) (n1 n2 : string) :
  url env (Some n1) = url env (Some n2) → n1 = n2.
Proof.
  unfold url. simpl. intros H.
  apply (inj (String.append _)) in H.
  apply (inj (String.append _)) in H.
  by apply append_inj_r in H.
Qed.

(** [Some a = Some b → P b], without unfolding [a]. *)
Ltac some_eq := let H := fresh "Hsome" in
  intros H; apply (inj Some) in H; subst.

(** ** One render *)

Section Render.
Variable env : option string.

Lemma render_allEvalSettings name w :
  allEvalSettings (ModelDetailsPage env name w).1 = allEvalSettings w.
Proof. unfold ModelDetailsPage, useEffect. simpl. by case_bool_decide. Qed.

Lemma render_route name w : route (ModelDetailsPage env name w).1 = name.
Proof. unfold ModelDetailsPage, useEffect. simpl. by case_bool_decide. Qed.

Lemma render_deps name w :
  deps (ModelDetailsPage env name w).1 = Some (url env name).
Proof. unfold ModelDetailsPage, useEffect. simpl. by case_bool_decide. Qed.

(** A render whose [url] is the one of the last run of the effect
    changes nothing but the recorded [name]. *)
Lemma render_same_url name w :
  deps w = Some (url env name) →
  pending (ModelDetailsPage env name w).1 = pending w
  ∧ next_id (ModelDetailsPage env name w).1 = next_id w
  ∧ sent (ModelDetailsPage env name w).1 = sent w.
Proof.
  intros H. unfold ModelDetailsPage, useEffect. simpl.
  by rewrite bool_decide_eq_true_2.
Qed.

(** A render with another [url] issues one request and leaves the
    pending ones pending. *)
Lemma render_new_url name w :
  deps w ≠ Some (url env name) →
  pending (ModelDetailsPage env name w).1
    = <[next_id w := axios_get (url env name)]> (pending w)
  ∧ next_id (ModelDetailsPage env name w).1 = S (next_id w)
  ∧ sent (ModelDetailsPage env name w).1 = sent w ++ [axios_get (url env name)].
Proof.
  intros H. unfold ModelDetailsPage, useEffect. simpl.
  by rewrite bool_decide_eq_false_2.
Qed.

Lemma view_eq w : view env w = page (route w) (allEvalSettings w).
Proof. reflexivity. Qed.

(** ** Reachable worlds *)

Lemma coherent_init : coherent env init.
Proof. split; [|done]. intros i r. simpl. by rewrite lookup_empty. Qed.

Lemma coherent_render name w :
  coherent env w → coherent env (ModelDetailsPage env name w).1.
Proof.
  intros [Hfresh _]. split.
  - intros i r. destruct (decide (deps w = Some (url env name))) as [E|E].
    + destruct (render_same_url name w E) as (-> & -> & _). apply Hfresh.
    + destruct (render_new_url name w E) as (-> & -> & _).
      rewrite lookup_insert. case_decide; [lia|].
      intros Hp%Hfresh. lia.
  - by rewrite render_deps, render_route.
Qed.

Lemma coherent_settle i w : coherent env w → coherent env (settle i w).
Proof.
  intros [Hfresh Hdeps]. split; [|done].
  intros j r. simpl. rewrite lookup_delete. case_decide; [done|apply Hfresh].
Qed.

Lemma coherent_set v w :
  coherent env w → coherent env (setAllEvalSettings v w).
Proof. by intros [??]. Qed.

Lemma coherent_step w e w' :
  coherent env w → step env w e = Some w' → coherent env w'.
Proof.
  intros Hw. destruct e as [name|i d|i]; cbn [step].
  - some_eq. by apply coherent_render.
  - destruct (pending w !! i); [|done]. some_eq.
    by apply coherent_render, coherent_set, coherent_settle.
  - destruct (pending w !! i); [|done]. some_eq.
    by apply coherent_settle.
Qed.

Lemma coherent_run tr : ∀ w w',
  coherent env w → run env w tr = Some w' → coherent env w'.
Proof.
  induction tr as [|e tr IH]; simpl; intros w w' Hw.
  - by some_eq.
  - destruct (step env w e) as [w1|] eqn:E; [|done]. simpl.
    apply IH. by eapply coherent_step.
Qed.

(** ** What an event does to the stored list *)

Lemma step_render_stored name w w' :
  step env w (ERender name) = Some w' → allEvalSettings w' = allEvalSettings w.
Proof. cbn [step]. some_eq. apply render_allEvalSettings. Qed.

Lemma step_resolve_stored i d w w' :
  step env w (EResolve i d) = Some w' → allEvalSettings w' = d.
Proof.
  cbn [step]. destruct (pending w !! i); [|done]. some_eq.
  by rewrite render_allEvalSettings.
Qed.

Lemma step_reject_stored i w w' :
  step env w (EReject i) = Some w' →
  allEvalSettings w' = allEvalSettings w ∧ route w' = route w.
Proof. simpl. destruct (pending w !! i); [|done]. by some_eq. Qed.

Lemma step_resolve_enabled i d r w :
  pending w !! i = Some r → is_Some (step env w (EResolve i d)).
Proof. intros H. simpl. rewrite H. eauto. Qed.

Lemma run_last_body tr : ∀ w w',
  run env w tr = Some w' → allEvalSettings w' = last_body (allEvalSettings w) tr.
Proof.
  induction tr as [|e tr IH]; simpl; intros w w'.
  - by intros [= <-].
  - destruct (step env w e) as [w1|] eqn:E; [|done]. simpl.
    intros H%IH. rewrite H. destruct e as [name|i d|i].
    + by rewrite (step_render_stored _ _ _ E).
    + by rewrite (step_resolve_stored _ _ _ _ E).
    + by destruct (step_reject_stored _ _ _ E) as [-> _].
Qed.

Lemma last_body_no_resolve d0 tr :
  forallb (λ e, negb (is_resolve e)) tr = true → last_body d0 tr = d0.
Proof.
  induction tr as [|[name|i d|i] tr IH]; simpl; [done| |done|]; auto.
Qed.

(** A render keeps every pending request pending. *)
Lemma render_keeps_pending name w i r :
  coherent env w → pending w !! i = Some r →
  pending (ModelDetailsPage env name w).1 !! i = Some r.
Proof.
  intros [Hfresh _] Hi.
  destruct (decide (deps w = Some (url env name))) as [E|E].
  - by destruct (render_same_url name w E) as (-> & _).
  - destruct (render_new_url name w E) as (-> & _).
    rewrite lookup_insert_ne; [done|]. apply Hfresh in Hi. lia.
Qed.

(** The response to a pending request, in a world that has rendered:
    the body is stored, the request is settled, and the render that
    follows issues nothing. *)
Lemma resolve_pending w i d r :
  coherent env w → is_Some (deps w) → pending w !! i = Some r →
  ∃ w', step env w (EResolve i d) = Some w'
    ∧ allEvalSettings w' = d
    ∧ route w' = route w
    ∧ deps w' = deps w
    ∧ pending w' = delete i (pending w).
Proof.
  intros [_ Hdeps] [u Hu] Hi. rewrite Hu in Hdeps. subst u.
  exists (ModelDetailsPage env (route w) (setAllEvalSettings d (settle i w))).1.
  split; [cbn [step]; by rewrite Hi|].
  split; [by rewrite render_allEvalSettings|].
  split; [by rewrite render_route|].
  split; [by rewrite render_deps|].
  by destruct (render_same_url (route w)
                 (setAllEvalSettings d (settle i w)) Hu) as (-> & _).
Qed.

End Render.

(** ** The column schema: widths, cells, flags *)

(** C4, as the code has it: four columns carry a fixed pixel width, two
    of them [taskTypeWidth] = 250 and two [areaWidth] = 175; the first
    column and the link column set none and get the grid's default. *)
Theorem column_widths :
  map (λ c, (field c, width c)) columns
  = [ ("dataset_name", None);
      ("model_pred_task_type", Some 250);
      ("dataset_gt_task_type", Some 250);
      ("min_area", Some 175);
      ("max_area", Some 175);
      (EmptyString, None) ].
Proof. reflexivity. Qed.

(** C4 as stated fails: the number of columns with a fixed width is four,
    not two. *)
Lemma fixed_width_columns_not_two :
  length (List.filter has_width columns) = 4%nat
  ∧ (length (List.filter has_width columns) =? 2)%nat = false.
Proof. split; reflexivity. Qed.


Example row_cells_coco :
  map (λ c, grid_cell c (row_object coco)) columns
  = [ Some (CellValue (JStr "coco"));
      Some (CellValue (JStr "detection"));
      Some (CellValue (JStr "detection"));
      Some (CellValue (JNum (safe_int 0 I)));
      Some (CellValue (JNum (safe_int 1000 I)));
      Some (CellNode (Link "evaluation-settings/1" "view metrics")) ].
Proof. reflexivity. Qed.

(** A row whose identifier is a string, and whose areas are missing. *)
Example row_cells_string_id :
  map (λ c, grid_cell c
              (JObj [ ("id", JStr "a1b2"); ("dataset_name", JStr "coco");
                      ("min_area", JNull) ])) columns
  = [ Some (CellValue (JStr "coco"));
      Some (CellValue JUndefined);
      Some (CellValue JUndefined);
      Some (CellValue JNull);
      Some (CellValue JUndefined);
      Some (CellNode (Link "evaluation-settings/a1b2" "view metrics")) ].
Proof. reflexivity. Qed.

Lemma page_Some name stored e :
  page name stored = Some e →
  js_truthy stored = true
  ∧ e = Wrapper [ Typography "h2" name; h3 "Evaluations";
                  DataGrid stored columns 5 [5] true ].
Proof.
  unfold page. destruct (js_truthy stored); simpl; [|done].
  by intros [= <-].
Qed.

(** C6: in every page the component returns, the grid has exactly one
    column with a cell renderer, the "view metrics" link, and that column
    is declared with [sortable], [filterable] and [hideable] all
    [false]; the declaration is a constant, the same in every render
    whatever the state. *)
Theorem view_metrics_column_locked env name w e :
  (ModelDetailsPage env name w).2 = Some e →
  grid_columns e = columns
  ∧ ∃ c, List.filter has_renderCell (grid_columns e) = [c]
       ∧ renderCell c = Some view_metrics_cell
       ∧ sortable c = Some false
       ∧ filterable c = Some false
       ∧ hideable c = Some false.
Proof.
  intros [_ ->]%page_Some. split; [reflexivity|].
  eexists. split; [reflexivity|]. by repeat split.
Qed.

Lemma view_metrics_column_locked_witness :
  grid_columns (Wrapper [ Typography "h2" (Some "resnet50"); h3 "Evaluations";
                          DataGrid (JArr []) columns 5 [5] true ]) = columns
  ∧ ∃ c, List.filter has_renderCell
           (grid_columns (Wrapper [ Typography "h2" (Some "resnet50");
                                    h3 "Evaluations";
                                    DataGrid (JArr []) columns 5 [5] true ]))
         = [c]
       ∧ renderCell c = Some view_metrics_cell
       ∧ sortable c = Some false
       ∧ filterable c = Some false
       ∧ hideable c = Some false.
Proof.
  apply (view_metrics_column_locked backend (Some "resnet50") init).
  reflexivity.
Defined.

(** C7: in every page the component returns, the grid starts with a page
    size of 5 and offers [5] as the only page size. *)
Theorem page_size_fixed env name w e :
  (ModelDetailsPage env name w).2 = Some e →
  ∃ rs cs opts, grid_of e = Some (rs, cs, 5, opts)
    ∧ opts = [5]
    ∧ ∀ n, n ∈ opts → n = 5.
Proof.
  intros [_ ->]%page_Some. do 3 eexists. split; [reflexivity|].
  split; [reflexivity|]. by intros n ->%list_elem_of_singleton.
Qed.

Lemma page_size_fixed_witness :
  ∃ rs cs opts,
    grid_of (Wrapper [ Typography "h2" (Some "resnet50"); h3 "Evaluations";
                       DataGrid (JArr []) columns 5 [5] true ])
    = Some (rs, cs, 5, opts)
    ∧ opts = [5]
    ∧ ∀ n, n ∈ opts → n = 5.
Proof.
  apply (page_size_fixed backend (Some "resnet50") init).
  reflexivity.
Defined.

(** C10: the heading of every page the component returns is the
    [Typography] of variant [h2] whose only child is the value of [name]
    as the route gave it. *)
Theorem heading_is_name env name w e :
  (ModelDetailsPage env name w).2 = Some e →
  heading_of e = Some (Typography "h2" name).
Proof. by intros [_ ->]%page_Some. Qed.

Lemma heading_is_name_witness :
  heading_of (Wrapper [ Typography "h2" (Some "resnet50"); h3 "Evaluations";
                        DataGrid (JArr []) columns 5 [5] true ])
  = Some (Typography "h2" (Some "resnet50")).
Proof.
  apply (heading_is_name backend (Some "resnet50") init).
  reflexivity.
Defined.

(** ** The fetch *)

(** C2: in every world the component can reach, the stored value is the
    initial empty array when no response has arrived, and otherwise the
    body of the response that arrived last, as it is. *)
Theorem stored_list_is_last_response env tr w :
  run env init tr = Some w →
  allEvalSettings w = last_body (JArr []) tr.
Proof. apply run_last_body. Qed.

Lemma stored_list_is_last_response_witness :
  ∃ w, run backend init two_answers = Some w
     ∧ allEvalSettings w = JArr [row_object voc].
Proof.
  eexists. split; [reflexivity|].
  apply (stored_list_is_last_response backend two_answers). reflexivity.
Defined.

(** C3: the first render issues one request, and a later render issues
    one request when the identifier differs from the one of the render
    before and none when it is the same.  The request is a GET of the
    backend URL followed by [/models/], the identifier and
    [/evaluation-settings], with no body and no parameters. *)
Theorem one_get_per_identifier base tr w n0 n :
  run (Some base) init tr = Some w →
  route w = Some n0 →
  let req := {| method := GET;
                req_url := base +:+ "/models/" +:+ n +:+ "/evaluation-settings";
                req_data := None;
                req_params := [] |} in
  sent (ModelDetailsPage (Some base) (Some n) init).1 = [req]
  ∧ sent (ModelDetailsPage (Some base) (Some n) w).1
    = if decide (n = n0) then sent w else sent w ++ [req].
Proof.
  intros Hrun Hroute req. split; [reflexivity|].
  destruct (coherent_run _ _ _ _ (coherent_init _) Hrun) as [_ Hdeps].
  destruct (deps w) as [u|] eqn:Edeps; [|congruence].
  rewrite Hroute in Hdeps. subst u.
  case_decide as Hn.
  - subst n0. by apply render_same_url.
  - apply render_new_url. rewrite Edeps.
    intros [= Hu]. apply url_inj in Hu. congruence.
Qed.

Lemma one_get_per_identifier_witness :
  let req := {| method := GET;
                req_url := "http://localhost:8000" +:+ "/models/" +:+ "yolo"
                           +:+ "/evaluation-settings";
                req_data := None;
                req_params := [] |} in
  sent (ModelDetailsPage (Some "http://localhost:8000") (Some "yolo") init).1
  = [req]
  ∧ sent (ModelDetailsPage (Some "http://localhost:8000") (Some "yolo") mounted).1
    = if decide ("yolo" = "resnet50") then sent mounted else sent mounted ++ [req].
Proof.
  apply (one_get_per_identifier "http://localhost:8000"
           [ERender (Some "resnet50")] mounted "resnet50" "yolo");
    reflexivity.
Defined.

Example requests_of_two_routes :
  sent two_in_flight
  = [ axios_get "http://localhost:8000/models/resnet50/evaluation-settings";
      axios_get "http://localhost:8000/models/yolo/evaluation-settings" ].
Proof. reflexivity. Qed.

(** C1, as the code has it: a rejected request is observed by nothing.
    The world after it is the world before it with the request no longer
    pending, so the stored value and the rendered output are what they
    were; and while no response has arrived the stored value is the
    initial empty array and the page shows a grid over no rows. *)
Theorem rejected_fetch_unobserved env tr w i w' :
  run env init tr = Some w →
  step env w (EReject i) = Some w' →
  w' = settle i w
  ∧ allEvalSettings w' = allEvalSettings w
  ∧ view env w' = view env w
  ∧ (forallb (λ e, negb (is_resolve e)) tr = true →
     allEvalSettings w' = JArr []
     ∧ view env w' ≫= grid_of = Some (JArr [], columns, 5, [5])).
Proof.
  intros Hrun Hstep.
  assert (w' = settle i w) as ->.
  { cbn [step] in Hstep. destruct (pending w !! i); [|done].
    by apply (inj Some) in Hstep. }
  split; [reflexivity|]. split; [reflexivity|]. split; [reflexivity|].
  intros Hnone. apply (run_last_body env) in Hrun.
  rewrite (last_body_no_resolve _ _ Hnone) in Hrun.
  rewrite view_eq. simpl. by rewrite Hrun.
Qed.

Lemma rejected_fetch_unobserved_witness :
  allEvalSettings (settle 0%nat mounted) = JArr []
  ∧ view backend (settle 0%nat mounted) ≫= grid_of
    = Some (JArr [], columns, 5, [5]).
Proof.
  apply (rejected_fetch_unobserved backend [ERender (Some "resnet50")]
           mounted 0%nat (settle 0%nat mounted));
    reflexivity.
Defined.

(** C1 as stated fails: the request for [yolo] is rejected after the one
    for [resnet50] was answered, and the stored value is that answer,
    one row, which the grid shows. *)
Lemma failed_fetch_after_success_not_empty :
  allEvalSettings <$> run backend init reject_after_success
  = Some (JArr [row_object coco])
  ∧ (run backend init reject_after_success
     ≫= (λ w, row_count (allEvalSettings w))) = Some 1%nat
  ∧ ((run backend init reject_after_success ≫= view backend) ≫= grid_of)
    = Some (JArr [row_object coco], columns, 5, [5]).
Proof. repeat split. Qed.

(** C8: a render for another identifier cancels nothing, the requests
    pending before it are pending after it; and each of them, when its
    response arrives, stores the body, whatever URL it was issued for and
    whatever the current identifier is.  Of two pending requests the one
    answered second decides the stored value, and with it what is
    displayed: under the heading of the current identifier, the grid
    over that body (or nothing at all when the body is falsy). *)
Theorem last_response_wins env tr w name i j ri rj di dj :
  run env init tr = Some w →
  pending w !! i = Some ri →
  pending w !! j = Some rj →
  i ≠ j →
  ∃ w1 w2 w3,
    step env w (ERender name) = Some w1
    ∧ pending w1 !! i = Some ri ∧ pending w1 !! j = Some rj
    ∧ step env w1 (EResolve i di) = Some w2
    ∧ allEvalSettings w2 = di
    ∧ step env w2 (EResolve j dj) = Some w3
    ∧ allEvalSettings w3 = dj
    ∧ route w3 = name
    ∧ view env w2
      = (if js_truthy di
         then Some (Wrapper [ Typography "h2" name; h3 "Evaluations";
                              DataGrid di columns 5 [5] true ])
         else None)
    ∧ view env w3
      = (if js_truthy dj
         then Some (Wrapper [ Typography "h2" name; h3 "Evaluations";
                              DataGrid dj columns 5 [5] true ])
         else None).
Proof.
  intros Hrun Hi Hj Hij.
  pose proof (coherent_run _ _ _ _ (coherent_init env) Hrun) as Hw.
  pose proof (coherent_render env name w Hw) as Hw1.
  pose proof (render_keeps_pending env name w i ri Hw Hi) as Hi1.
  pose proof (render_keeps_pending env name w j rj Hw Hj) as Hj1.
  pose proof (render_deps env name w) as Hd1.
  pose proof (render_route env name w) as Hr1.
  destruct (resolve_pending env _ i di ri Hw1 (mk_is_Some _ _ Hd1) Hi1)
    as (w2 & Hs2 & Ha2 & Hr2 & Hd2 & Hp2).
  pose proof (coherent_step env _ _ _ Hw1 Hs2) as Hw2.
  assert (pending w2 !! j = Some rj) as Hj2.
  { rewrite Hp2. by rewrite lookup_delete_ne. }
  rewrite Hd1 in Hd2.
  destruct (resolve_pending env _ j dj rj Hw2 (mk_is_Some _ _ Hd2) Hj2)
    as (w3 & Hs3 & Ha3 & Hr3 & _).
  exists (ModelDetailsPage env name w).1, w2, w3.
  split; [reflexivity|]. do 6 (split; [assumption|]).
  split; [congruence|].
  rewrite !view_eq, Ha2, Ha3, Hr3, Hr2, Hr1. unfold page.
  by destruct (js_truthy di), (js_truthy dj).
Qed.

Lemma last_response_wins_witness :
  ∃ w1 w2 w3,
    step backend two_in_flight (ERender (Some "yolo")) = Some w1
    ∧ pending w1 !! 1%nat
      = Some (axios_get "http://localhost:8000/models/yolo/evaluation-settings")
    ∧ pending w1 !! 0%nat
      = Some (axios_get "http://localhost:8000/models/resnet50/evaluation-settings")
    ∧ step backend w1 (EResolve 1%nat (JArr [row_object voc])) = Some w2
    ∧ allEvalSettings w2 = JArr [row_object voc]
    ∧ step backend w2 (EResolve 0%nat (JArr [row_object coco])) = Some w3
    ∧ allEvalSettings w3 = JArr [row_object coco]
    ∧ route w3 = Some "yolo"
    ∧ view backend w2
      = (if js_truthy (JArr [row_object voc])
         then Some (Wrapper [ Typography "h2" (Some "yolo"); h3 "Evaluations";
                              DataGrid (JArr [row_object voc]) columns 5 [5]
                                true ])
         else None)
    ∧ view backend w3
      = (if js_truthy (JArr [row_object coco])
         then Some (Wrapper [ Typography "h2" (Some "yolo"); h3 "Evaluations";
                              DataGrid (JArr [row_object coco]) columns 5 [5]
                                true ])
         else None).
Proof.
  apply (last_response_wins backend
           [ERender (Some "resnet50"); ERender (Some "yolo")] two_in_flight);
    [reflexivity | reflexivity | reflexivity | lia].
Defined.

(** The race on a run: the page for [yolo] ends up with the rows of
    [resnet50], whose response came second. *)
Example stale_rows_shown :
  (run backend init
     [ ERender (Some "resnet50"); ERender (Some "yolo");
       EResolve 1%nat (JArr [row_object voc]);
       EResolve 0%nat (JArr [row_object coco]) ]
   ≫= (λ w, Some (route w, allEvalSettings w)))
  = Some (Some "yolo", JArr [row_object coco]).
Proof. reflexivity. Qed.

(** C9: a response stores its body whatever it is.  When the body is
    falsy the component then returns [null]; when it is truthy it
    returns the page, with the grid over the body.  [null] and
    [undefined] are falsy, the empty array is truthy. *)
Theorem falsy_body_renders_nothing env w i d w' :
  step env w (EResolve i d) = Some w' →
  allEvalSettings w' = d
  ∧ view env w'
    = (if js_truthy d
       then Some (Wrapper [ Typography "h2" (route w); h3 "Evaluations";
                            DataGrid d columns 5 [5] true ])
       else None)
  ∧ js_truthy JNull = false
  ∧ js_truthy JUndefined = false
  ∧ js_truthy (JArr []) = true.
Proof.
  intros Hstep.
  pose proof (step_resolve_stored _ _ _ _ _ Hstep) as Hd.
  assert (route w' = route w) as Hr.
  { cbn [step] in Hstep. destruct (pending w !! i); [|done].
    apply (inj Some) in Hstep. subst w'. by rewrite render_route. }
  repeat split; [done|].
  rewrite view_eq, Hd, Hr. unfold page. by destruct (js_truthy d).
Qed.

Lemma falsy_body_renders_nothing_witness :
  allEvalSettings (setAllEvalSettings JNull (settle 0%nat mounted)) = JNull
  ∧ view backend (setAllEvalSettings JNull (settle 0%nat mounted)) = None
  ∧ js_truthy JNull = false
  ∧ js_truthy JUndefined = false
  ∧ js_truthy (JArr []) = true.
Proof.
  apply (falsy_body_renders_nothing backend mounted 0%nat JNull).
  reflexivity.
Defined.

Example empty_array_renders_grid :
  ((run backend init [ERender (Some "resnet50"); EResolve 0%nat (JArr [])]
    ≫= view backend) ≫= grid_of)
  = Some (JArr [], columns, 5, [5]).
Proof. reflexivity. Qed.

(** ** More on the URL and the effect *)

(** Two names give one URL exactly when they are spliced in as the same
    text. *)
Lemma url_eq_iff (env a b : option string) :
  url env a = url env b ↔ template_part a = template_part b.
Proof.
  unfold url. split; [|by intros ->].
  intros H.
  apply (inj (String.append _)) in H.
  apply (inj (String.append _)) in H.
  by apply append_inj_r in H.
Qed.

Section Log.
Variable env : option string.

(** The response to a pending request, in a world that has rendered,
    changes the stored value and the pending set, and nothing else. *)
Lemma resolve_world w i d r :
  coherent env w → is_Some (deps w) → pending w !! i = Some r →
  step env w (EResolve i d) = Some (setAllEvalSettings d (settle i w)).
Proof.
  intros [_ Hdeps] [u Hu] Hi. rewrite Hu in Hdeps. subst u.
  cbn [step]. rewrite Hi. f_equal.
  unfold ModelDetailsPage, useEffect. simpl.
  by rewrite bool_decide_eq_true_2.
Qed.

Lemma reject_world w i w' :
  step env w (EReject i) = Some w' → w' = settle i w ∧ is_Some (pending w !! i).
Proof.
  cbn [step]. destruct (pending w !! i) eqn:E; [|done].
  intros H. apply (inj Some) in H. eauto.
Qed.

Lemma logged_init : logged env init.
Proof.
  split; [done|]. split; [|split; [|done]].
  - intros i r. simpl. by rewrite lookup_empty.
  - intros r. simpl. by intros ?%elem_of_nil.
Qed.

Lemma logged_render name w : logged env w → logged env (ModelDetailsPage env name w).1.
Proof.
  intros (Hn & Hp & Hg & Hl).
  destruct (decide (deps w = Some (url env name))) as [E|E].
  - destruct (render_same_url env name w E) as (Ep & En & Es).
    unfold logged. rewrite Ep, En, Es, render_deps.
    rewrite E in Hl. done.
  - destruct (render_new_url env name w E) as (Ep & En & Es).
    unfold logged. rewrite Ep, En, Es, render_deps.
    split; [rewrite length_app; simpl; lia|].
    split; [|split].
    + intros i r [[<- <-]|[Hne Hi]]%lookup_insert_Some.
      * rewrite Hn. by rewrite list_lookup_middle.
      * apply lookup_app_l_Some. by apply Hp.
    + intros r [Hr|Hr%list_elem_of_singleton]%elem_of_app; [by apply Hg|].
      by exists name.
    + by rewrite last_snoc.
Qed.

Lemma logged_settle i w : logged env w → logged env (settle i w).
Proof.
  intros (Hn & Hp & Hg & Hl). split; [done|]. split; [|done].
  intros j r. simpl. intros [_ Hj]%lookup_delete_Some. by apply Hp.
Qed.

Lemma logged_set v w : logged env w → logged env (setAllEvalSettings v w).
Proof. by intros (?&?&?&?). Qed.

Lemma logged_step w e w' : logged env w → step env w e = Some w' → logged env w'.
Proof.
  intros Hw. destruct e as [name|i d|i]; cbn [step].
  - some_eq. by apply logged_render.
  - destruct (pending w !! i); [|done]. some_eq.
    by apply logged_render, logged_set, logged_settle.
  - destruct (pending w !! i); [|done]. some_eq.
    by apply logged_settle.
Qed.

Lemma logged_run tr : ∀ w w',
  logged env w → run env w tr = Some w' → logged env w'.
Proof.
  induction tr as [|e tr IH]; simpl; intros w w' Hw.
  - by intros [= <-].
  - destruct (step env w e) as [w1|] eqn:E; [|done]. simpl.
    apply IH. by eapply logged_step.
Qed.

(** A request can only be pending once the effect has run. *)
Lemma logged_pending_rendered w i r :
  logged env w → pending w !! i = Some r → is_Some (deps w).
Proof.
  intros (_ & Hp & _ & Hl) Hi. apply Hp in Hi.
  destruct (deps w); [eauto|]. rewrite Hl in Hi. by rewrite lookup_nil in Hi.
Qed.

Lemma reachable tr w :
  run env init tr = Some w → coherent env w ∧ logged env w.
Proof.
  intros H. split.
  - by apply (coherent_run env tr init w (coherent_init env)).
  - by apply (logged_run tr init w logged_init).
Qed.

(** What one enabled event does to the log and to the dependency of the
    effect. *)
Lemma step_log w e w' :
  coherent env w → logged env w → step env w e = Some w' →
  sent w' = sent w ++ (axios_get <$> squash_from (deps w) (render_urls env [e]))
  ∧ deps w' = match e with
              | ERender name => Some (url env name)
              | _ => deps w
              end.
Proof.
  intros Hc Hl. destruct e as [name|i d|i].
  - cbn [step]. some_eq. rewrite render_deps. split; [|done].
    cbn [render_urls squash_from].
    destruct (decide (deps w = Some (url env name))) as [E|E].
    + destruct (render_same_url env name w E) as (_ & _ & ->).
      rewrite bool_decide_eq_true_2 by done. by rewrite app_nil_r.
    + destruct (render_new_url env name w E) as (_ & _ & ->).
      by rewrite bool_decide_eq_false_2 by done.
  - intros Hs. destruct (pending w !! i) as [r|] eqn:Hi.
    + rewrite (resolve_world w i d r Hc
                 (logged_pending_rendered w i r Hl Hi) Hi) in Hs.
      apply (inj Some) in Hs. subst w'. simpl. by rewrite app_nil_r.
    + cbn [step] in Hs. by rewrite Hi in Hs.
  - intros [-> _]%reject_world. simpl. by rewrite app_nil_r.
Qed.

Lemma run_log tr : ∀ w w',
  coherent env w → logged env w → run env w tr = Some w' →
  sent w' = sent w ++ (axios_get <$> squash_from (deps w) (render_urls env tr)).
Proof.
  induction tr as [|e tr IH]; simpl; intros w w' Hc Hl.
  - intros [= <-]. by rewrite app_nil_r.
  - destruct (step env w e) as [w1|] eqn:E; [|done]. simpl. intros Hrun.
    destruct (step_log w e w1 Hc Hl E) as [Hs Hd].
    rewrite (IH w1 w' (coherent_step env w e w1 Hc E)
               (logged_step w e w1 Hl E) Hrun), Hs, Hd.
    rewrite <- app_assoc. f_equal.
    destruct e as [name|i d|i]; simpl; [|by rewrite ?app_nil_r..].
    case_bool_decide as Eq; [|done]. by rewrite Eq.
Qed.

(** After the first event the effect has run. *)
Lemma rendered_after_first tr w :
  run env init tr = Some w → tr ≠ [] → is_Some (deps w).
Proof.
  intros Hrun Hne. destruct (reachable tr w Hrun) as [_ (_ & _ & _ & Hl)].
  destruct (deps w) as [u|] eqn:Hd; [eauto|]. exfalso.
  pose proof (run_log tr init w (coherent_init env) logged_init Hrun) as Hs.
  rewrite Hl in Hs. simpl in Hs.
  destruct tr as [|e tr]; [done|].
  destruct e as [name|i d|i]; [by simpl in Hs|done..].
Qed.

End Log.

(** ** Further properties of the link cell *)


(** X2: the renderer does not check the row.  For a row object with no
    [id] property the link goes to [evaluation-settings/undefined]. *)
Theorem row_without_id_links_to_undefined (props : list (string * JsVal)) :
  assoc "id" props = None →
  view_metrics_cell {| row := JObj props |}
  = Some (Link "evaluation-settings/undefined" "view metrics").
Proof. intros H. unfold view_metrics_cell. simpl. by rewrite H. Qed.

Lemma row_without_id_links_to_undefined_witness :
  view_metrics_cell {| row := JObj [("dataset_name", JStr "coco")] |}
  = Some (Link "evaluation-settings/undefined" "view metrics").
Proof.
  apply (row_without_id_links_to_undefined [("dataset_name", JStr "coco")]).
  reflexivity.
Defined.

(** ** Further properties of the component *)

(** X10: rendering again with the same [name] changes neither the hook
    state nor the output: the effect does not run a second time. *)
Theorem render_twice_is_render_once env name w :
  ModelDetailsPage env name (ModelDetailsPage env name w).1
  = ModelDetailsPage env name w.
Proof.
  pose proof (render_deps env name w) as Hd.
  pose proof (render_allEvalSettings env name w) as Ha.
  pose proof (render_route env name w) as Hr.
  destruct (ModelDetailsPage env name w) as [w1 out] eqn:E.
  simpl in Hd, Ha, Hr.
  assert (out = page name (allEvalSettings w)) as ->.
  { by apply (f_equal snd) in E. }
  cbn [fst]. unfold ModelDetailsPage, useEffect. cbn [deps].
  rewrite (bool_decide_eq_true_2 _ Hd), Ha. f_equal.
  clear E. destruct w1. simpl in Hd, Ha, Hr. by subst.
Qed.

(** X3: once mounted, a render issues a request exactly when the text
    spliced into the URL for [name] differs from the one of the render
    before; a missing [name] and the name "undefined" are the same
    text. *)
Theorem refetch_iff_url_text_changes env tr w name :
  run env init tr = Some w →
  tr ≠ [] →
  sent (ModelDetailsPage env name w).1
  = if decide (template_part name = template_part (route w))
    then sent w
    else sent w ++ [axios_get (url env name)].
Proof.
  intros Hrun Hne.
  destruct (rendered_after_first env tr w Hrun Hne) as [u Hu].
  destruct (reachable env tr w Hrun) as [[_ Hd] _].
  rewrite Hu in Hd. subst u.
  case_decide as Ht.
  - apply render_same_url. rewrite Hu. f_equal. by apply url_eq_iff.
  - apply render_new_url. rewrite Hu. intros [= Heq].
    by apply url_eq_iff in Heq.
Qed.

Lemma refetch_iff_url_text_changes_witness :
  sent (ModelDetailsPage None (Some "undefined")
          (ModelDetailsPage None None init).1).1
  = if decide (template_part (Some "undefined")
               = template_part (route (ModelDetailsPage None None init).1))
    then sent (ModelDetailsPage None None init).1
    else sent (ModelDetailsPage None None init).1
         ++ [axios_get (url None (Some "undefined"))].
Proof.
  apply (refetch_iff_url_text_changes None [ERender None]).
  - reflexivity.
  - discriminate.
Defined.

Example absent_name_then_undefined :
  sent (ModelDetailsPage None (Some "undefined")
          (ModelDetailsPage None None init).1).1
  = [axios_get "undefined/models/undefined/evaluation-settings"].
Proof. reflexivity. Qed.

(** X4: in every reachable world a pending request is one that was
    sent, at the position of its identifier in the log; and every
    request ever sent is a GET with no body and no parameters, to the
    evaluation-settings URL of some [name]. *)
Theorem request_log_invariant env tr w :
  run env init tr = Some w →
  (∀ i r, pending w !! i = Some r → sent w !! i = Some r)
  ∧ (∀ r, r ∈ sent w →
       method r = GET ∧ req_data r = None ∧ req_params r = []
       ∧ ∃ name, req_url r = url env name).
Proof.
  intros Hrun. destruct (reachable env tr w Hrun) as [_ (_ & Hp & Hg & _)].
  split; [done|]. intros r [name ->]%Hg. repeat split. by exists name.
Qed.

Lemma request_log_invariant_witness :
  (∀ i r, pending two_in_flight !! i = Some r → sent two_in_flight !! i = Some r)
  ∧ (∀ r, r ∈ sent two_in_flight →
       method r = GET ∧ req_data r = None ∧ req_params r = []
       ∧ ∃ name, req_url r = url backend name).
Proof.
  apply (request_log_invariant backend
           [ERender (Some "resnet50"); ERender (Some "yolo")]).
  reflexivity.
Defined.

(** X5: once mounted, the request sent last is the one for the [name]
    on screen, whatever has been answered or rejected since. *)
Theorem latest_request_is_for_current_name env tr w :
  run env init tr = Some w →
  tr ≠ [] →
  last (sent w) = Some (axios_get (url env (route w))).
Proof.
  intros Hrun Hne.
  destruct (rendered_after_first env tr w Hrun Hne) as [u Hu].
  destruct (reachable env tr w Hrun) as [[_ Hd] (_ & _ & _ & Hl)].
  rewrite Hu in Hd, Hl. by subst u.
Qed.

Lemma latest_request_is_for_current_name_witness :
  ∃ w, run backend init two_answers = Some w
     ∧ last (sent w) = Some (axios_get (url backend (route w))).
Proof.
  eexists. split; [reflexivity|].
  apply (latest_request_is_for_current_name backend two_answers).
  - reflexivity.
  - discriminate.
Defined.

(** X6: the requests sent over a run are the URLs of its renders, in
    order, without those equal to the URL of the render before.
    Responses, rejections and renders that keep the URL send nothing. *)
Theorem requests_follow_url_changes env tr w :
  run env init tr = Some w →
  sent w = axios_get <$> squash_from None (render_urls env tr).
Proof.
  intros Hrun.
  by rewrite (run_log env tr init w (coherent_init env) (logged_init env) Hrun).
Qed.

Lemma requests_follow_url_changes_witness :
  ∃ w, run backend init back_and_forth = Some w
     ∧ sent w = axios_get <$> squash_from None (render_urls backend back_and_forth).
Proof.
  eexists. split; [reflexivity|].
  apply (requests_follow_url_changes backend back_and_forth). reflexivity.
Defined.

Example requests_back_and_forth :
  req_url <$> (axios_get <$> squash_from None (render_urls backend back_and_forth))
  = [ "http://localhost:8000/models/resnet50/evaluation-settings";
      "http://localhost:8000/models/yolo/evaluation-settings";
      "http://localhost:8000/models/resnet50/evaluation-settings" ].
Proof. reflexivity. Qed.

(** X7: in every reachable world a response changes the stored value
    and settles its request, and nothing else: the render that follows
    [setAllEvalSettings] sends no request. *)
Theorem response_changes_only_stored_value env tr w i d w' :
  run env init tr = Some w →
  step env w (EResolve i d) = Some w' →
  w' = setAllEvalSettings d (settle i w) ∧ sent w' = sent w.
Proof.
  intros Hrun Hstep. destruct (reachable env tr w Hrun) as [Hc Hl].
  destruct (pending w !! i) as [r|] eqn:Hi.
  - rewrite (resolve_world env w i d r Hc
               (logged_pending_rendered env w i r Hl Hi) Hi) in Hstep.
    apply (inj Some) in Hstep. by subst w'.
  - cbn [step] in Hstep. by rewrite Hi in Hstep.
Qed.

Lemma response_changes_only_stored_value_witness :
  ∃ w', step backend mounted (EResolve 0%nat (JArr [row_object coco])) = Some w'
      ∧ w' = setAllEvalSettings (JArr [row_object coco]) (settle 0%nat mounted)
      ∧ sent w' = sent mounted.
Proof.
  eexists. split; [reflexivity|].
  apply (response_changes_only_stored_value backend
           [ERender (Some "resnet50")] mounted 0%nat);
    reflexivity.
Defined.

(** X8: the hooks run before the early return.  With a falsy stored
    value the component returns [null], yet a render with a new URL
    still sends its request, and a truthy response to it brings the page
    back. *)
Theorem effect_runs_on_blank_page env w name d :
  js_truthy (allEvalSettings w) = false →
  deps w ≠ Some (url env name) →
  js_truthy d = true →
  (ModelDetailsPage env name w).2 = None
  ∧ pending (ModelDetailsPage env name w).1 !! next_id w
    = Some (axios_get (url env name))
  ∧ (step env (ModelDetailsPage env name w).1 (EResolve (next_id w) d)
     ≫= view env)
    = Some (Wrapper [ Typography "h2" name; h3 "Evaluations";
                      DataGrid d columns 5 [5] true ]).
Proof.
  intros Hfalsy Hurl Hd.
  destruct (render_new_url env name w Hurl) as (Hp & _ & _).
  assert (pending (ModelDetailsPage env name w).1 !! next_id w
          = Some (axios_get (url env name))) as Hi.
  { rewrite Hp. by rewrite lookup_insert_eq. }
  split; [|split; [done|]].
  - unfold ModelDetailsPage, page. simpl. by rewrite Hfalsy.
  - cbn [step]. rewrite Hi. cbn [mbind option_bind].
    rewrite view_eq, render_route, render_allEvalSettings.
    cbn [route allEvalSettings setAllEvalSettings settle].
    rewrite render_route. unfold page. by rewrite Hd.
Qed.

Lemma effect_runs_on_blank_page_witness :
  (ModelDetailsPage backend (Some "yolo") blank).2 = None
  ∧ pending (ModelDetailsPage backend (Some "yolo") blank).1 !! next_id blank
    = Some (axios_get (url backend (Some "yolo")))
  ∧ (step backend (ModelDetailsPage backend (Some "yolo") blank).1
       (EResolve (next_id blank) (JArr [row_object voc]))
     ≫= view backend)
    = Some (Wrapper [ Typography "h2" (Some "yolo"); h3 "Evaluations";
                      DataGrid (JArr [row_object voc]) columns 5 [5] true ]).
Proof.
  apply (effect_runs_on_blank_page backend blank (Some "yolo")
           (JArr [row_object voc])).
  - reflexivity.
  - discriminate.
  - reflexivity.
Defined.

(** X9: while no response has arrived, a response with an empty array
    leaves the output as it is: the page of a model without evaluation
    settings is the page shown while the request is pending. *)
Theorem empty_response_looks_like_loading env tr w i r :
  run env init tr = Some w →
  forallb (λ e, negb (is_resolve e)) tr = true →
  pending w !! i = Some r →
  (step env w (EResolve i (JArr [])) ≫= view env) = view env w
  ∧ view env w = Some (Wrapper [ Typography "h2" (route w); h3 "Evaluations";
                                 DataGrid (JArr []) columns 5 [5] true ]).
Proof.
  intros Hrun Hnone Hi. destruct (reachable env tr w Hrun) as [Hc Hl].
  rewrite (resolve_world env w i (JArr []) r Hc
             (logged_pending_rendered env w i r Hl Hi) Hi).
  cbn [mbind option_bind]. rewrite !view_eq. simpl.
  apply (run_last_body env) in Hrun.
  rewrite (last_body_no_resolve _ _ Hnone) in Hrun. simpl in Hrun.
  by rewrite Hrun.
Qed.

Lemma empty_response_looks_like_loading_witness :
  (step backend mounted (EResolve 0%nat (JArr [])) ≫= view backend)
  = view backend mounted
  ∧ view backend mounted
    = Some (Wrapper [ Typography "h2" (route mounted); h3 "Evaluations";
                      DataGrid (JArr []) columns 5 [5] true ]).
Proof.
  apply (empty_response_looks_like_loading backend
           [ERender (Some "resnet50")] mounted 0%nat
           (axios_get (url backend (Some "resnet50"))));
    reflexivity.
Defined.
